(** * Expense tracker: the store, the filter and the runs of main

    A shallow embedding of [Expense_tracker.py].  The program keeps its
    records in one file, [expenses.csv], which it reads and writes through
    pandas.  The embedding follows the source function by function:
    [load_expenses], [save_expense], [remove_expense], [filter_expenses]
    and [main].

    What belongs to pandas and to Python's [re] module, and not to this
    program, is an interface ([Pandas] and [Columns] below) with the
    documented behaviour the proofs rely on.

    The file is read in two ways.  The first part reads it cell by cell,
    on the two states that the program itself makes: no file, or the
    header and lines of three cells.  The part on whole columns reads the
    Description and Date columns each as a whole, as [read_csv] and
    [to_datetime] do, and knows the files on which [read_csv] raises;
    [load_expenses_cells] states when the two agree.

    The descriptions of a frame are text, and [filter_expenses] is the
    code on such a frame.  (On a Description column that [read_csv] typed
    as numbers, or that holds missing values only, the [.str] accessor
    raises AttributeError; the statements on the description filter are
    for columns of text.) *)

From Stdlib Require Import ZArith String Ascii List Bool Lia.
From Stdlib Require Import DecimalString DecimalZ.
From stdpp Require Import base list.

Import ListNotations.
Local Open Scope string_scope.
Local Open Scope list_scope.
Local Open Scope Z_scope.

(** ** Values *)

(** An amount is the value of [st.number_input(..., format="%.2f")]: it is
    kept as a number of hundredths.  A date is kept as its ordinal on the
    time line, which is what the comparisons of [filter_expenses] look at. *)
Definition amount := Z.
Definition date := Z.

(** One data line of [expenses.csv] after tokenisation: three cells of
    text, under the header line [Description,Amount,Date]. *)
Record raw_row := RawRow {
  raw_description : string;
  raw_amount : string;
  raw_date : string
}.

(** The file system as far as the program looks at it: [None] when
    [os.path.exists("expenses.csv")] is false, otherwise the data lines
    under the header. *)
Definition store := option (list raw_row).

(** A row of a loaded DataFrame.  [None] is the missing value (NaN in
    Description and Amount, NaT in Date). *)
Record expense := Expense {
  Description : option string;
  Amount : option amount;
  Date : option date
}.

(** A DataFrame: rows with their index labels, in order.  The columns are
    the three fields of [expense]. *)
Definition DataFrame := list (Z * expense).

Definition columns : list string := ["Description"; "Amount"; "Date"].

(** [pd.DataFrame(columns=[...])]: no rows. *)
Definition DataFrame_empty (cols : list string) : DataFrame := [].

Definition rows (df : DataFrame) : list expense := map snd df.

(** ** Exceptions and the state of the file *)

Inductive exn :=
| KeyError (label : Z)
| ReError (pattern : string)
| EmptyDataError
| ParserError.

Inductive outcome (A : Type) :=
| Ok (a : A)
| Raise (e : exn).
Arguments Ok {A} a.
Arguments Raise {A} e.

Definition outcome_bind {A B} (f : A -> outcome B) (o : outcome A) : outcome B :=
  match o with
  | Ok a => f a
  | Raise e => Raise e
  end.

#[global] Instance outcome_mbind : MBind outcome := @outcome_bind.
#[global] Instance outcome_mret : MRet outcome := @Ok.

(** A computation on the file: it returns or raises, and leaves a file
    state behind either way. *)
Definition M (A : Type) : Type := store -> outcome A * store.

Definition M_bind {A B} (f : A -> M B) (m : M A) : M B :=
  fun s =>
    match m s with
    | (Ok a, s') => f a s'
    | (Raise e, s') => (Raise e, s')
    end.

Definition M_ret {A} (a : A) : M A := fun s => (Ok a, s).

#[global] Instance M_mbind : MBind M := @M_bind.
#[global] Instance M_mret : MRet M := @M_ret.

(** An operation that may raise and does not touch the file. *)
Definition lift {A} (o : outcome A) : M A := fun s => (o, s).

(** ** pandas: reading and writing cells *)

(** The strings [pd.read_csv] takes for a missing value (its default
    [na_values], [keep_default_na=True]). *)
Definition na_values : list string :=
  [""; "#N/A"; "#N/A N/A"; "#NA"; "-1.#IND"; "-1.#QNAN"; "-NaN"; "-nan";
   "1.#IND"; "1.#QNAN"; "<NA>"; "N/A"; "NA"; "NULL"; "NaN"; "None";
   "n/a"; "nan"; "null"].

Definition is_na (tok : string) : bool :=
  existsb (String.eqb tok) na_values.

(** A cell as [pd.read_csv] hands it over: missing, or its text. *)
Definition read_cell (tok : string) : option string :=
  if is_na tok then None else Some tok.

(** Characters with a meaning in a regular expression. *)
Definition re_special (c : ascii) : bool :=
  existsb (Ascii.eqb c)
    ["\"; "."; "^"; "$"; "*"; "+"; "?"; "{"; "}"; "["; "]"; "("; ")"; "|"]%char.

Definition is_ascii (c : ascii) : bool := (nat_of_ascii c <? 128)%nat.

Definition ascii_only (s : string) : bool :=
  forallb is_ascii (list_ascii_of_string s).

Definition lower (c : ascii) : ascii :=
  let n := nat_of_ascii c in
  if ((65 <=? n) && (n <=? 90))%nat then ascii_of_nat (n + 32) else c.

Definition newline : ascii := "010"%char.

(** A pattern made of ordinary ASCII characters and dots. *)
Definition dot_pattern (p : string) : bool :=
  forallb (fun c => is_ascii c && (Ascii.eqb c "." || negb (re_special c)))
          (list_ascii_of_string p).

(** A pattern of ordinary ASCII characters only: a keyword. *)
Definition keyword (p : string) : bool :=
  forallb (fun c => is_ascii c && negb (re_special c)) (list_ascii_of_string p).

(** What [re] does with one pattern character of a [dot_pattern] under
    [re.IGNORECASE]: a dot takes any character but a newline, another
    character takes itself in either case. *)
Definition char_matches (c x : ascii) : bool :=
  if Ascii.eqb c "." then negb (Ascii.eqb x newline)
  else Ascii.eqb (lower c) (lower x).

Fixpoint match_here (p s : list ascii) : bool :=
  match p, s with
  | [], _ => true
  | _ :: _, [] => false
  | c :: p', x :: s' => char_matches c x && match_here p' s'
  end.

Fixpoint search_from (p s : list ascii) : bool :=
  match_here p s ||
  match s with
  | [] => false
  | _ :: s' => search_from p s'
  end.

Definition dot_search (p s : string) : bool :=
  search_from (list_ascii_of_string p) (list_ascii_of_string s).

(** The library the program calls.  [to_numeric] and [to_datetime] are the
    conversions with [errors="coerce"], on the text of one cell;
    [repr_amount] and [isoformat] are what [to_csv] writes for a number and
    for a date; [re_compile_ignorecase p] is [re.compile(p, re.IGNORECASE)],
    [None] when it raises [re.error], otherwise the predicate
    [fun s => pat.search(s) is not None].

    The conversions are taken cell by cell, and a cell of the Description
    column is the text of the cell; the type that [read_csv] gives to a
    whole column is the matter of [Columns], further down.  The laws are
    the documented
    behaviour: what [to_csv] writes for a number or a date is not a
    missing-value token and converts back to the value, and a regular
    expression without special characters other than the dot searches for
    its characters, a dot standing for any character but a newline. *)
Class Pandas := {
  to_numeric : string -> option amount;
  repr_amount : amount -> string;
  to_datetime : string -> option date;
  isoformat : date -> string;
  re_compile_ignorecase : string -> option (string -> bool);
  (* a number written by to_csv reads back as itself *)
  to_numeric_repr : forall a, to_numeric (repr_amount a) = Some a;
  repr_amount_not_na : forall a, is_na (repr_amount a) = false;
  (* so does a date *)
  to_datetime_isoformat : forall d, to_datetime (isoformat d) = Some d;
  isoformat_not_na : forall d, is_na (isoformat d) = false;
  (* ordinary characters and dots compile, and search as [dot_search] *)
  re_dot_pattern : forall p, dot_pattern p = true ->
    exists m, re_compile_ignorecase p = Some m /\
              forall s, ascii_only s = true -> m s = dot_search p s
}.

Section Tracker.
Context `{Pandas}.

(** ** The store *)

Fixpoint index_from (k : Z) (l : list expense) : DataFrame :=
  match l with
  | [] => []
  | r :: l' => (k, r) :: index_from (k + 1) l'
  end.

(** The default index of a frame built from a file: 0, 1, 2, ... *)
Definition RangeIndex (l : list expense) : DataFrame := index_from 0 l.

(** Lines 15 to 17 on one data line: [read_csv], then the two coercions. *)
Definition load_row (r : raw_row) : expense :=
  {| Description := read_cell (raw_description r);
     Amount := read_cell (raw_amount r) ≫= to_numeric;
     Date := read_cell (raw_date r) ≫= to_datetime |}.

Definition load_expenses : M DataFrame :=
  fun s =>
    match s with
    | Some lines => (Ok (RangeIndex (map load_row lines)), s)
    | None => (Ok (DataFrame_empty columns), s)
    end.

(** What [to_csv] writes for a row: a missing value is the empty string
    ([na_rep=""]). *)
Definition write_row (r : expense) : raw_row :=
  {| raw_description := default "" (Description r);
     raw_amount := from_option repr_amount "" (Amount r);
     raw_date := from_option isoformat "" (Date r) |}.

(** [df.to_csv("expenses.csv", index=False)]: header and all rows. *)
Definition to_csv (df : DataFrame) : M unit :=
  fun _ => (Ok tt, Some (map write_row (rows df))).

Definition save_expense (description : string) (amount : amount) (date : date)
  : M unit :=
  fun s =>
    let new_data : DataFrame :=
      RangeIndex [ {| Description := Some description;
                      Amount := Some amount;
                      Date := Some date |} ] in
    match s with
    | Some lines =>
        (* mode='a', header=False *)
        (Ok tt, Some (lines ++ map write_row (rows new_data)))
    | None =>
        (* mode='w' *)
        (Ok tt, Some (map write_row (rows new_data)))
    end.

(** [df.drop(label)]: the rows under that label go; a label that is not in
    the index raises KeyError. *)
Definition drop (label : Z) (df : DataFrame) : outcome DataFrame :=
  if existsb (fun r => fst r =? label) df
  then Ok (List.filter (fun r => negb (fst r =? label)) df)
  else Raise (KeyError label).

Definition remove_expense (index : Z) : M unit :=
  expenses ← load_expenses;
  expenses ← lift (drop index expenses);
  to_csv expenses.

(** ** The filter *)

(** Python's truth value of a string. *)
Definition truthy (s : string) : bool := negb (String.eqb s "").

(** [df['Description'].str.contains(pat, case=False, na=False)]: [pat] is a
    regular expression ([regex=True] is the default); a missing description
    gives [False]. *)
Definition str_contains (pat : string) : outcome (expense -> bool) :=
  match re_compile_ignorecase pat with
  | None => Raise (ReError pat)
  | Some m =>
      Ok (fun r => match Description r with
                   | Some d => m d
                   | None => false
                   end)
  end.

(** [df['Amount'] <= t], [df['Date'] >= d], [df['Date'] <= d]: a comparison
    with a missing value is [False]. *)
Definition Amount_le (t : amount) (r : expense) : bool :=
  match Amount r with
  | Some a => a <=? t
  | None => false
  end.

Definition Date_ge (d : date) (r : expense) : bool :=
  match Date r with
  | Some x => d <=? x
  | None => false
  end.

Definition Date_le (d : date) (r : expense) : bool :=
  match Date r with
  | Some x => x <=? d
  | None => false
  end.

(** [df[mask]]: the rows where the mask holds, under their labels. *)
Definition select (mask : expense -> bool) (df : DataFrame) : DataFrame :=
  List.filter (fun r => mask (snd r)) df.

Definition filter_expenses (expenses : DataFrame) (description_filter : string)
    (amount_filter : amount) (date_range : list date) : outcome DataFrame :=
  let filtered_expenses := expenses in
  filtered_expenses ←
    (if truthy description_filter
     then mask ← str_contains description_filter;
          Ok (select mask filtered_expenses)
     else Ok filtered_expenses);
  let filtered_expenses :=
    if 0 <? amount_filter
    then select (Amount_le amount_filter) filtered_expenses
    else filtered_expenses in
  let filtered_expenses :=
    match date_range with
    | [start_date; end_date] =>
        select (fun r => Date_ge start_date r && Date_le end_date r)
               filtered_expenses
    | _ => filtered_expenses
    end in
  Ok filtered_expenses.

(** ** The filter on DataFrame objects

    In Python [expenses] names an object that the caller still holds.  The
    objects live in a store; a reference is a position in it, and [new]
    makes an object that was not there before.  [expenses.copy()] and
    [df[mask]] each make a new object; [filtered_expenses] is rebound to
    it. *)

Definition ref := nat.

Record objects := Objects {
  next : ref;
  obj : ref -> DataFrame
}.

Definition new (df : DataFrame) (h : objects) : ref * objects :=
  (next h,
   {| next := S (next h);
      obj := fun r => if Nat.eqb r (next h) then df else obj h r |}).

Definition filter_expenses_obj (expenses : ref) (description_filter : string)
    (amount_filter : amount) (date_range : list date) (h : objects)
  : outcome ref * objects :=
  let '(filtered_expenses, h) := new (obj h expenses) h in
  match
    (if truthy description_filter
     then mask ← str_contains description_filter;
          Ok (new (select mask (obj h filtered_expenses)) h)
     else Ok (filtered_expenses, h))
  with
  | Raise e => (Raise e, h)
  | Ok (filtered_expenses, h) =>
      let '(filtered_expenses, h) :=
        if 0 <? amount_filter
        then new (select (Amount_le amount_filter) (obj h filtered_expenses)) h
        else (filtered_expenses, h) in
      let '(filtered_expenses, h) :=
        match date_range with
        | [start_date; end_date] =>
            new (select (fun r => Date_ge start_date r && Date_le end_date r)
                        (obj h filtered_expenses)) h
        | _ => (filtered_expenses, h)
        end in
      (Ok filtered_expenses, h)
  end.

(** ** The add action of [main] *)

Inductive widget :=
| st_success (description : string) (amount : amount) (date : date)
| st_error (message : string)
| st_dataframe (df : DataFrame).

(** Lines 113 to 120, when the "Add Expense" button is pressed. *)
Definition main_add_expense (description : string) (amount : amount)
    (date : date) : M (list widget) :=
  if truthy description && (0 <? amount)
  then _ ← save_expense description amount date;
       expenses ← load_expenses;
       mret [st_success description amount date; st_dataframe expenses]
  else mret [st_error "Please enter a valid description and amount."].

(** ** One run of [main]

    Streamlit runs [main] from top to bottom on every interaction.  What
    the widgets return in that run is the input; the page is the list of
    what the run displays, in order. *)

Record inputs := Inputs {
  ui_selected_expense : Z;          (* st.selectbox(..., expenses.index) *)
  ui_remove_expense : bool;         (* st.button("Remove Expense") *)
  ui_description : string;          (* st.text_input("Description") *)
  ui_amount : amount;               (* st.number_input("Amount", ...) *)
  ui_date : date;                   (* st.date_input("Date") *)
  ui_add_expense : bool;            (* st.button("Add Expense") *)
  ui_description_filter : string;   (* st.text_input("Filter by Description") *)
  ui_amount_filter : amount;        (* st.number_input("Filter by Maximum Amount", ...) *)
  ui_date_range : list date;        (* st.date_input("Filter by Date Range", []) *)
  ui_apply_filter : bool            (* st.button("Apply Filter") *)
}.

Inductive element :=
| st_title (text : string)
| st_header (text : string)
| st_subheader (text : string)
| st_write (text : string)
| st_selectbox (label : string) (options : list Z)
| st_button (label : string)
| st_text_input (label : string)
| st_number_input (label : string)
| st_date_input (label : string)
| st_success_message (text : string)
| st_show (w : widget).

(** [df.empty] *)
Definition is_empty (df : DataFrame) : bool :=
  match df with
  | [] => true
  | _ :: _ => false
  end.

(** [df.index] *)
Definition index (df : DataFrame) : list Z := map fst df.

(** Lines 85 to 131.  When a call raises, the run stops there and the
    exception is the outcome. *)
Definition main (ui : inputs) : M (list element) :=
  let page := [st_title "Expense Tracker"] in
  expenses ← load_expenses;
  let page := page ++ [st_header "Current Expenses"] in
  '(expenses, page) ←
    (if negb (is_empty expenses)
     then
       let page := page ++ [st_show (st_dataframe expenses)] in
       let page :=
         page ++ [st_selectbox "Select an expense to remove" (index expenses)] in
       let selected_expense := ui_selected_expense ui in
       let page := page ++ [st_button "Remove Expense"] in
       if ui_remove_expense ui
       then
         _ ← remove_expense selected_expense;
         let page :=
           page ++ [st_success_message "Expense removed successfully!"] in
         expenses ← load_expenses;
         mret (expenses, page ++ [st_show (st_dataframe expenses)])
       else mret (expenses, page)
     else mret (expenses, page ++ [st_write "No expenses found."]));
  let page := page ++ [st_subheader "Add New Expense"] in
  let page := page ++ [st_text_input "Description"] in
  let description := ui_description ui in
  let page := page ++ [st_number_input "Amount"] in
  let amount := ui_amount ui in
  let page := page ++ [st_date_input "Date"] in
  let date := ui_date ui in
  let page := page ++ [st_button "Add Expense"] in
  '(expenses, page) ←
    (if ui_add_expense ui
     then
       if truthy description && (0 <? amount)
       then
         _ ← save_expense description amount date;
         let page := page ++ [st_show (st_success description amount date)] in
         expenses ← load_expenses;
         mret (expenses, page ++ [st_show (st_dataframe expenses)])
       else
         mret (expenses,
               page ++ [st_show (st_error
                          "Please enter a valid description and amount.")])
     else mret (expenses, page));
  let page := page ++ [st_subheader "Filter Expenses"] in
  let page := page ++ [st_text_input "Filter by Description"] in
  let description_filter := ui_description_filter ui in
  let page := page ++ [st_number_input "Filter by Maximum Amount"] in
  let amount_filter := ui_amount_filter ui in
  let page := page ++ [st_date_input "Filter by Date Range"] in
  let date_range := ui_date_range ui in
  let page := page ++ [st_button "Apply Filter"] in
  if ui_apply_filter ui
  then
    filtered_expenses ←
      lift (filter_expenses expenses description_filter amount_filter
                            date_range);
    let page := page ++ [st_write "Filtered Expenses:"] in
    mret (page ++ [st_show (st_dataframe filtered_expenses)])
  else mret page.

(** ** Notions the statements use *)

(** A loaded description is never one of the tokens [read_csv] takes for
    a missing value. *)
Definition clean (r : expense) : Prop :=
  match Description r with
  | Some d => is_na d = false
  | None => True
  end.

(** The three conditions of [filter_expenses], each as a mask on rows; a
    condition that is switched off holds of every row. *)
Definition description_mask (description_filter : string)
  : outcome (expense -> bool) :=
  if truthy description_filter
  then str_contains description_filter
  else Ok (fun _ => true).

Definition amount_mask (amount_filter : amount) : expense -> bool :=
  if 0 <? amount_filter then Amount_le amount_filter else fun _ => true.

Definition date_mask (date_range : list date) : expense -> bool :=
  match date_range with
  | [start_date; end_date] =>
      fun r => Date_ge start_date r && Date_le end_date r
  | _ => fun _ => true
  end.

(** The inputs and buttons that every run displays under the table. *)
Definition add_form : list element :=
  [ st_subheader "Add New Expense"; st_text_input "Description";
    st_number_input "Amount"; st_date_input "Date";
    st_button "Add Expense" ].

Definition filter_form : list element :=
  [ st_subheader "Filter Expenses"; st_text_input "Filter by Description";
    st_number_input "Filter by Maximum Amount";
    st_date_input "Filter by Date Range"; st_button "Apply Filter" ].

End Tracker.

(** [needle] occurs in [hay] when the case of letters is ignored. *)
Definition icontains (needle hay : string) : Prop :=
  exists pre post,
    map lower (list_ascii_of_string hay) =
    pre ++ map lower (list_ascii_of_string needle) ++ post.

(** ** Whole columns, and the file as it is on disk

    [load_row] above reads a line cell by cell.  That is what the code does
    on a file whose Description column [read_csv] keeps as text and whose
    dates are all written the same way.  In general [read_csv] gives one
    type to the whole Description column (a column of [007] and [008] is a
    column of the integers 7 and 8, and [to_csv] writes them back as [7]
    and [8]), [to_datetime] takes one format for the whole Date column, and
    [read_csv] raises on a file that it cannot lay out.  The definitions
    below follow the code on these files too; [load_expenses_cells], further
    down, says when the two readings agree. *)

Definition is_letter (c : ascii) : bool :=
  let n := nat_of_ascii c in
  ((65 <=? n) && (n <=? 90) || (97 <=? n) && (n <=? 122))%nat.

Definition is_digit (c : ascii) : bool :=
  let n := nat_of_ascii c in ((48 <=? n) && (n <=? 57))%nat.

Definition lower_string (s : string) : string :=
  string_of_list_ascii (map lower (list_ascii_of_string s)).

(** A cell that [read_csv] can only take for text: it starts with a
    letter and is neither a missing-value token, nor a word for infinity or
    not-a-number, nor a truth value. *)
Definition surely_text (tok : string) : bool :=
  match tok with
  | EmptyString => false
  | String c _ =>
      is_letter c && negb (is_na tok) &&
      negb (existsb (String.eqb (lower_string tok))
                    ["inf"; "infinity"; "nan"; "true"; "false"])
  end.

(** A cell of one to eighteen digits: an integer that fits 64 bits. *)
Definition short_digits (tok : string) : bool :=
  let cs := list_ascii_of_string tok in
  negb (Nat.eqb (length cs) 0) && (length cs <=? 18)%nat &&
  forallb is_digit cs.

Definition int_of_digits (tok : string) : Z :=
  fold_left (fun z c => 10 * z + Z.of_nat (nat_of_ascii c - 48))
            (list_ascii_of_string tok) 0.

(** Python's [str] of an integer, which is what [to_csv] writes for it. *)
Definition str_int (z : Z) : string := NilEmpty.string_of_int (Z.to_int z).

(** [read_csv] reads a long file in chunks and types each chunk on its own;
    the laws on columns are stated for files well below that length. *)
Definition one_chunk (toks : list string) : bool :=
  Z.of_nat (length toks) <=? 100000.

(** What [to_csv] writes for a date or a missing date. *)
Definition write_date `{Pandas} (v : option date) : string :=
  from_option isoformat "" v.

(** The columns as the code reads them.  [read_Description toks] is the
    Description column that [read_csv] makes of the cells [toks], each
    value given as the text that [to_csv] writes for it ([None]: missing);
    [read_Date toks] is [pd.to_datetime(..., errors="coerce")] on the Date
    column.  The laws: a column has one value per cell; a column with a
    cell that can only be text is text throughout, each cell its own text;
    a column of short digit strings is a column of integers; a date cell
    that does not convert on its own is missing; a column of dates as they
    are written converts back to these dates. *)
Class Columns `{Pandas} := {
  read_Description : list string -> list (option string);
  read_Date : list string -> list (option date);
  read_Description_length : forall toks,
    length (read_Description toks) = length toks;
  read_Description_text : forall toks,
    one_chunk toks = true ->
    existsb surely_text toks = true ->
    read_Description toks = map read_cell toks;
  read_Description_int : forall toks,
    toks <> [] ->
    one_chunk toks = true ->
    forallb short_digits toks = true ->
    read_Description toks =
    map (fun tok => Some (str_int (int_of_digits tok))) toks;
  read_Date_length : forall toks, length (read_Date toks) = length toks;
  read_Date_coerce : forall toks (i : nat) tok,
    toks !! i = Some tok ->
    read_cell tok ≫= to_datetime = None ->
    read_Date toks !! i = Some None;
  read_Date_written : forall vals : list (option date),
    read_Date (map write_date vals) = vals
}.

(** The file on disk: absent; there with no content; the header line
    [Description,Amount,Date] and lines of three cells; or the header, a
    first line of three cells and, further down, a line of four cells or
    more.  (Other contents are not represented.) *)
Inductive disk :=
| no_file
| empty_file
| csv_lines (lines : list raw_row)
| long_line (first : raw_row) (lines : list raw_row)
            (c1 c2 c3 c4 : string) (more : list string)
            (rest : list (list string)).

Definition of_store (s : store) : disk :=
  match s with
  | None => no_file
  | Some lines => csv_lines lines
  end.

(** The header line of a [csv_lines] file. *)
Definition header : list string := ["Description"; "Amount"; "Date"].

(** A DataFrame with its column names. *)
Record Frame := {
  frame_columns : list string;
  frame_rows : DataFrame
}.

Module Typed.
Section Typed.
Context `{Columns}.

Definition M (A : Type) : Type := disk -> outcome A * disk.

Definition bind {A B} (m : M A) (f : A -> M B) : M B :=
  fun d =>
    match m d with
    | (Ok a, d') => f a d'
    | (Raise e, d') => (Raise e, d')
    end.

(** Lines 15 to 17 on the lines of a file: the three columns, each read
    as a whole, put back into rows. *)
Definition load_rows (lines : list raw_row) : list expense :=
  let Description := read_Description (map raw_description lines) in
  let Amount :=
    map (fun r => read_cell (raw_amount r) ≫= to_numeric) lines in
  let Date := read_Date (map raw_date lines) in
  zip_with (fun d ad => Expense d (fst ad) (snd ad))
           Description (zip Amount Date).

Definition load_expenses : M Frame :=
  fun d =>
    match d with
    | no_file =>
        (Ok {| frame_columns := columns;
               frame_rows := DataFrame_empty columns |}, d)
    | empty_file => (Raise EmptyDataError, d)
    | long_line _ _ _ _ _ _ _ _ => (Raise ParserError, d)
    | csv_lines lines =>
        (Ok {| frame_columns := header;
               frame_rows := RangeIndex (load_rows lines) |}, d)
    end.

(** [df.to_csv("expenses.csv", index=False)] *)
Definition to_csv (df : DataFrame) : M unit :=
  fun _ => (Ok tt, csv_lines (map write_row (rows df))).

Definition remove_expense (index : Z) : M unit :=
  bind load_expenses (fun expenses =>
  bind (fun d => (drop index (frame_rows expenses), d)) (fun expenses =>
  to_csv expenses)).

End Typed.
End Typed.

(** ** A library to run the model on

    Numbers and dates written in plain decimal, and the regular expressions
    made of ordinary characters and dots.  It shows that the interface can
    be met, and lets the examples below compute. *)

Module Reference.

Definition print_Z (z : Z) : string := NilEmpty.string_of_int (Z.to_int z).

Definition parse_Z (s : string) : option Z :=
  option_map Z.of_int (NilEmpty.int_of_string s).

Definition compile (p : string) : option (string -> bool) :=
  if dot_pattern p then Some (dot_search p) else None.

Lemma parse_print z : parse_Z (print_Z z) = Some z.
Proof.
  unfold parse_Z, print_Z.
  rewrite NilEmpty.isi. simpl. f_equal. apply DecimalZ.of_to.
Qed.

Lemma uint_not_na d :
  d <> Decimal.Nil -> is_na (NilEmpty.string_of_uint d) = false.
Proof.
  destruct d; [congruence | ..]; intros _; destruct d; reflexivity.
Qed.

Lemma neg_uint_not_na d :
  is_na (String "-" (NilEmpty.string_of_uint d)) = false.
Proof.
  destruct d; [reflexivity | ..]; destruct d; reflexivity.
Qed.

Lemma print_not_na z : is_na (print_Z z) = false.
Proof.
  destruct z as [|p|p]; unfold print_Z; simpl.
  - reflexivity.
  - apply uint_not_na, DecimalPos.Unsigned.to_uint_nonnil.
  - apply neg_uint_not_na.
Qed.

Lemma compile_dot_pattern p :
  dot_pattern p = true ->
  exists m, compile p = Some m /\
            forall s, ascii_only s = true -> m s = dot_search p s.
Proof.
  intros Hp. exists (dot_search p). unfold compile. rewrite Hp. auto.
Qed.

#[export] Instance pandas : Pandas := {|
  to_numeric := parse_Z;
  repr_amount := print_Z;
  to_datetime := parse_Z;
  isoformat := print_Z;
  re_compile_ignorecase := compile;
  to_numeric_repr := parse_print;
  repr_amount_not_na := print_not_na;
  to_datetime_isoformat := parse_print;
  isoformat_not_na := print_not_na;
  re_dot_pattern := compile_dot_pattern
|}.

(** Columns: text when a cell can only be text, integers when all cells
    are short digit strings, and cell by cell otherwise. *)
Definition read_description_column (toks : list string) : list (option string) :=
  if existsb surely_text toks then map read_cell toks
  else if negb (Nat.eqb (length toks) 0) && forallb short_digits toks
       then map (fun tok => Some (str_int (int_of_digits tok))) toks
       else map read_cell toks.

Definition read_date_column (toks : list string) : list (option date) :=
  map (fun tok => read_cell tok ≫= parse_Z) toks.

Lemma short_digits_not_text tok : short_digits tok = true -> surely_text tok = false.
Proof.
  unfold short_digits, surely_text. destruct tok as [|c tok]; [done|].
  intros [_ Hd]%andb_prop.
  change (list_ascii_of_string (String c tok))
    with (c :: list_ascii_of_string tok) in Hd.
  simpl in Hd. apply andb_prop in Hd as [Hc _].
  assert (is_letter c = false) as ->; [|done].
  unfold is_digit, is_letter in *. cbv zeta in *.
  destruct (Nat.leb_spec 48 (nat_of_ascii c)); [|done].
  destruct (Nat.leb_spec (nat_of_ascii c) 57); [|done].
  destruct (Nat.leb_spec 65 (nat_of_ascii c)); [lia|].
  destruct (Nat.leb_spec 97 (nat_of_ascii c)); [lia|]. done.
Qed.

Lemma digits_no_text toks :
  forallb short_digits toks = true -> existsb surely_text toks = false.
Proof.
  induction toks as [|tok toks IH]; simpl; [done|].
  intros [Ht Hs]%andb_prop. by rewrite (short_digits_not_text tok), IH.
Qed.

Lemma read_description_column_length toks :
  length (read_description_column toks) = length toks.
Proof.
  unfold read_description_column.
  destruct (existsb surely_text toks); [by rewrite length_map|].
  destruct (_ && _); by rewrite length_map.
Qed.

Lemma read_description_column_text toks :
  one_chunk toks = true -> existsb surely_text toks = true ->
  read_description_column toks = map read_cell toks.
Proof. intros _ E. unfold read_description_column. by rewrite E. Qed.

Lemma read_description_column_int toks :
  toks <> [] -> one_chunk toks = true -> forallb short_digits toks = true ->
  read_description_column toks =
  map (fun tok => Some (str_int (int_of_digits tok))) toks.
Proof.
  intros Hne _ Hd. unfold read_description_column.
  rewrite digits_no_text, Hd by done.
  by destruct toks.
Qed.

Lemma read_date_column_length toks :
  length (read_date_column toks) = length toks.
Proof. unfold read_date_column. by rewrite length_map. Qed.

Lemma read_date_column_coerce toks (i : nat) tok :
  toks !! i = Some tok ->
  read_cell tok ≫= parse_Z = None ->
  read_date_column toks !! i = Some None.
Proof.
  intros Hi E. unfold read_date_column.
  by rewrite list_lookup_fmap, Hi; simpl; rewrite E.
Qed.

Lemma read_date_column_written (vals : list (option date)) :
  read_date_column (map (@write_date pandas) vals) = vals.
Proof.
  unfold read_date_column. rewrite map_map.
  induction vals as [|[d|] vals IH]; simpl; [done|..]; rewrite IH; f_equal.
  unfold read_cell. simpl. rewrite print_not_na. simpl. apply parse_print.
Qed.

#[export] Instance columns_instance : @Columns pandas := {|
  read_Description := read_description_column;
  read_Date := read_date_column;
  read_Description_length := read_description_column_length;
  read_Description_text := read_description_column_text;
  read_Description_int := read_description_column_int;
  read_Date_length := read_date_column_length;
  read_Date_coerce := read_date_column_coerce;
  read_Date_written := read_date_column_written
|}.

End Reference.

(** ** The table of the examples

    Coffee, 4.50, 2024-01-01 and Rent, 1200.00, 2024-01-05: amounts in
    hundredths, dates as days since 1970-01-01. *)

Module Examples.

Definition coffee : expense :=
  {| Description := Some "Coffee"; Amount := Some 450; Date := Some 19723 |}.

Definition rent : expense :=
  {| Description := Some "Rent"; Amount := Some 120000; Date := Some 19727 |}.

Definition table : DataFrame := [(0, coffee); (1, rent)].

(** The file that holds the table, as the reference library writes it. *)
Definition file : store :=
  Some [ {| raw_description := "Coffee"; raw_amount := "450";
            raw_date := "19723" |};
         {| raw_description := "Rent"; raw_amount := "120000";
            raw_date := "19727" |} ].

(** The same file after a hand edit: an amount that is not a number and a
    date that is not a date. *)
Definition edited_file : store :=
  Some [ {| raw_description := "Coffee"; raw_amount := "four fifty";
            raw_date := "19723" |};
         {| raw_description := "Rent"; raw_amount := "120000";
            raw_date := "someday" |} ].

(** An object store in which the table is the object 0. *)
Definition heap : objects := {| next := 1%nat; obj := fun _ => table |}.

(** Runs of [main]: "Remove Expense" pressed on the second expense, "Add
    Expense" pressed for a taxi, "Apply Filter" pressed with the filter
    [rent]. *)
Definition press_remove : inputs :=
  {| ui_selected_expense := 1; ui_remove_expense := true;
     ui_description := ""; ui_amount := 0; ui_date := 19724;
     ui_add_expense := false;
     ui_description_filter := ""; ui_amount_filter := 0;
     ui_date_range := []; ui_apply_filter := false |}.

Definition press_add : inputs :=
  {| ui_selected_expense := 0; ui_remove_expense := false;
     ui_description := "Taxi"; ui_amount := 700; ui_date := 19724;
     ui_add_expense := true;
     ui_description_filter := ""; ui_amount_filter := 0;
     ui_date_range := []; ui_apply_filter := false |}.

Definition press_filter : inputs :=
  {| ui_selected_expense := 0; ui_remove_expense := false;
     ui_description := ""; ui_amount := 0; ui_date := 19724;
     ui_add_expense := false;
     ui_description_filter := "rent"; ui_amount_filter := 0;
     ui_date_range := []; ui_apply_filter := true |}.

End Examples.

(** ** Frames and their index *)

Section Frames.

Lemma rows_index_from k l : rows (index_from k l) = l.
Proof.
  revert k. induction l as [|r l IH]; intros k; simpl; [done|].
  unfold rows in IH. by rewrite IH.
Qed.

Lemma length_index_from k l : length (index_from k l) = length l.
Proof. revert k. induction l as [|r l IH]; intros k; simpl; auto. Qed.

Lemma index_from_lookup k l (i : nat) :
  index_from k l !! i = (fun r => (k + Z.of_nat i, r)) <$> l !! i.
Proof.
  revert k i. induction l as [|r l IH]; intros k [|i]; simpl; try done.
  - by rewrite Z.add_0_r.
  - rewrite IH. destruct (l !! i); simpl; [|done].
    do 2 f_equal. lia.
Qed.

Lemma index_from_app k l1 l2 :
  index_from k (l1 ++ l2) =
  index_from k l1 ++ index_from (k + Z.of_nat (length l1)) l2.
Proof.
  revert k. induction l1 as [|r l1 IH]; intros k; simpl.
  - by rewrite Z.add_0_r.
  - rewrite IH. do 3 f_equal. lia.
Qed.

(** Labels below the start of the index are not in it. *)
Lemma index_from_no_label k l i :
  i < k -> existsb (fun r : Z * expense => fst r =? i) (index_from k l) = false.
Proof.
  revert k. induction l as [|r l IH]; intros k Hi; simpl; [done|].
  rewrite IH by lia. destruct (Z.eqb_spec k i); [lia | done].
Qed.

Lemma index_from_keep_all k l i :
  i < k ->
  List.filter (fun r : Z * expense => negb (fst r =? i)) (index_from k l)
  = index_from k l.
Proof.
  revert k. induction l as [|r l IH]; intros k Hi; simpl; [done|].
  destruct (Z.eqb_spec k i); [lia|]. simpl. by rewrite IH by lia.
Qed.

(** On a default index, dropping a label in range is deleting that
    position. *)
Lemma drop_index_from k l i :
  k <= i < k + Z.of_nat (length l) ->
  exists df, drop i (index_from k l) = Ok df /\
             rows df = delete (Z.to_nat (i - k)) l.
Proof.
  unfold drop. revert k. induction l as [|r l IH]; intros k Hi; simpl in *.
  - lia.
  - destruct (Z.eqb_spec k i) as [->|Hne]; simpl.
    + eexists; split; [done|].
      rewrite index_from_keep_all by lia.
      rewrite rows_index_from. by rewrite Z.sub_diag.
    + destruct (IH (k + 1)) as (df & Hdf & Hrows); [lia|].
      destruct (existsb _ (index_from (k + 1) l)); [|done].
      injection Hdf as <-.
      eexists; split; [done|].
      unfold rows in *. simpl. rewrite Hrows.
      replace (Z.to_nat (i - k)) with (S (Z.to_nat (i - (k + 1)))) by lia.
      done.
Qed.

(** A label outside the index raises KeyError. *)
Lemma drop_index_from_raises k l i :
  i < k \/ k + Z.of_nat (length l) <= i ->
  drop i (index_from k l) = Raise (KeyError i).
Proof.
  unfold drop. revert k. induction l as [|r l IH]; intros k Hi; simpl in *.
  - done.
  - destruct (Z.eqb_spec k i) as [->|Hne]; [lia|]. simpl.
    specialize (IH (k + 1)).
    destruct (existsb _ (index_from (k + 1) l)); [|done].
    exfalso. assert (i < k + 1 \/ k + 1 + Z.of_nat (length l) <= i) as Hi' by lia.
    specialize (IH Hi'). discriminate.
Qed.

Lemma select_sublist mask df : sublist (select mask df) df.
Proof.
  unfold select. induction df as [|r df IH]; simpl; [constructor|].
  destruct (mask (snd r)); by constructor.
Qed.

Lemma select_select mask df : select mask (select mask df) = select mask df.
Proof.
  unfold select. induction df as [|r df IH]; simpl; [done|].
  destruct (mask (snd r)) eqn:E; simpl; rewrite ?E, IH; done.
Qed.

Lemma select_comm m1 m2 df :
  select m1 (select m2 df) = select m2 (select m1 df).
Proof.
  unfold select. induction df as [|r df IH]; simpl; [done|].
  destruct (m1 (snd r)) eqn:E1, (m2 (snd r)) eqn:E2; simpl;
    rewrite ?E1, ?E2, IH; done.
Qed.

Lemma elem_of_select mask df x :
  x ∈ select mask df <-> x ∈ df /\ mask (snd x) = true.
Proof.
  unfold select. rewrite !list_elem_of_In, filter_In. done.
Qed.

End Frames.

(** ** The store: load, save, remove *)

Section Store.
Context `{Pandas}.

Lemma load_row_clean raw : clean (load_row raw).
Proof.
  unfold clean, load_row, read_cell. simpl.
  by destruct (is_na (raw_description raw)) eqn:E.
Qed.

(** Writing a loaded row and reading it again gives the row back. *)
Lemma load_write_row r : clean r -> load_row (write_row r) = r.
Proof.
  destruct r as [[d|] [a|] [dt|]]; unfold clean, load_row, write_row, read_cell;
    simpl; intros Hc;
    rewrite ?Hc, ?repr_amount_not_na, ?isoformat_not_na; simpl;
    rewrite ?to_numeric_repr, ?to_datetime_isoformat; done.
Qed.

Lemma load_write_rows l :
  Forall clean l -> map load_row (map write_row l) = l.
Proof.
  induction 1 as [|r l Hr _ IH]; simpl; [done|].
  by rewrite load_write_row, IH.
Qed.

Lemma Forall_clean_load lines : Forall clean (map load_row lines).
Proof. apply Forall_forall. intros r Hr. apply list_elem_of_In, in_map_iff in Hr.
  destruct Hr as (raw & <- & _). apply load_row_clean. Qed.

(** [load_expenses] returns, leaves the file as it is, and its frame has
    the default index. *)
Lemma load_expenses_total s :
  load_expenses s =
  (Ok (RangeIndex (map load_row (default [] s))), s).
Proof. destruct s; reflexivity. Qed.

Lemma load_saved_row description a d :
  load_row {| raw_description := description;
              raw_amount := repr_amount a;
              raw_date := isoformat d |} =
  {| Description := read_cell description; Amount := Some a; Date := Some d |}.
Proof.
  unfold load_row; simpl. f_equal.
  - unfold read_cell. rewrite repr_amount_not_na. simpl. apply to_numeric_repr.
  - unfold read_cell. rewrite isoformat_not_na. simpl.
    apply to_datetime_isoformat.
Qed.

Lemma run_save_load description a d s :
  (save_expense description a d ≫= fun _ => load_expenses) s =
  (Ok (RangeIndex (map load_row (default [] s) ++
                   [ {| Description := read_cell description;
                        Amount := Some a; Date := Some d |} ])),
   Some (default [] s ++
         [ {| raw_description := description;
              raw_amount := repr_amount a;
              raw_date := isoformat d |} ])).
Proof.
  unfold mbind, M_mbind, M_bind.
  destruct s as [lines|]; simpl.
  - rewrite map_app. simpl. unfold write_row; simpl.
    by rewrite load_saved_row.
  - unfold write_row; simpl. by rewrite load_saved_row.
Qed.

(** A frame that [load_expenses] returned has the default index. *)
Lemma loaded_frame s T :
  load_expenses s = (Ok T, s) ->
  T = RangeIndex (map load_row (default [] s)) /\ Forall clean (rows T).
Proof.
  rewrite load_expenses_total. intros [= <-]. split; [done|].
  unfold RangeIndex. rewrite rows_index_from. apply Forall_clean_load.
Qed.

(** C1 (the input on which the code departs from the claim).  Saving a
    record whose description is the text NA and loading again gives a
    table whose last row has a missing description: [read_csv] takes the
    cell for a missing value, so the last row is not the saved record. *)
Theorem save_NA_then_load s a d :
  exists T s',
    (save_expense "NA" a d ≫= fun _ => load_expenses) s = (Ok T, s') /\
    last (rows T) =
      Some {| Description := None; Amount := Some a; Date := Some d |} /\
    last (rows T) <>
      Some {| Description := Some "NA"; Amount := Some a; Date := Some d |}.
Proof.
  do 2 eexists. split; [apply run_save_load|].
  unfold RangeIndex. rewrite rows_index_from, last_snoc.
  split; [reflexivity | discriminate].
Qed.

(** C7 (as the code has it).  For an index outside the table as loaded,
    [remove_expense] raises KeyError, from [drop], before anything is
    written: the file is as it was. *)
Theorem remove_out_of_range_raises s T i :
  load_expenses s = (Ok T, s) ->
  i < 0 \/ Z.of_nat (length T) <= i ->
  remove_expense i s = (Raise (KeyError i), s).
Proof.
  intros Hload Hi. unfold remove_expense, mbind, M_mbind, M_bind.
  rewrite Hload. apply loaded_frame in Hload as [-> _].
  unfold RangeIndex in *. rewrite length_index_from in Hi.
  unfold lift. rewrite drop_index_from_raises; [done | lia].
Qed.

End Store.

(** ** The filter *)

Section Filter.
Context `{Pandas}.

Lemma select_true df : select (fun _ => true) df = df.
Proof. unfold select. induction df as [|r df IH]; simpl; [done|]. by rewrite IH. Qed.

Lemma select_and m1 m2 df :
  select m2 (select m1 df) = select (fun r => m1 r && m2 r) df.
Proof.
  unfold select. induction df as [|r df IH]; simpl; [done|].
  destruct (m1 (snd r)) eqn:E1; simpl; rewrite ?IH; done.
Qed.

Lemma select_ext m1 m2 df :
  (forall r, m1 r = m2 r) -> select m1 df = select m2 df.
Proof.
  intros E. unfold select. induction df as [|r df IH]; simpl; [done|].
  by rewrite E, IH.
Qed.

(** [filter_expenses] selects with the three masks, one after the other. *)
Lemma filter_expenses_masks df d t r :
  filter_expenses df d t r =
  mask ← description_mask d;
  Ok (select (date_mask r) (select (amount_mask t) (select mask df))).
Proof.
  unfold filter_expenses, description_mask, amount_mask, date_mask.
  unfold mbind, outcome_mbind, outcome_bind.
  destruct (truthy d); [destruct (str_contains d); [|done]|];
    destruct (0 <? t); destruct r as [|? [|? [|? ?]]];
    rewrite ?select_true; done.
Qed.

(** C8.  Filtering twice with the same criteria is filtering once: when
    the first call returns a frame, the second call on that frame returns
    the same frame, and when the first call raises there is no second
    call. *)
Theorem filter_expenses_idempotent df d t r :
  (df' ← filter_expenses df d t r; filter_expenses df' d t r) =
  filter_expenses df d t r.
Proof.
  rewrite filter_expenses_masks.
  unfold mbind, outcome_mbind, outcome_bind.
  destruct (description_mask d) as [mask|e] eqn:E; [|done].
  rewrite filter_expenses_masks, E. simpl. f_equal.
  rewrite !select_and. apply select_ext. intros x.
  by destruct (mask x), (amount_mask t x), (date_mask r x).
Qed.

(** C5.  With a threshold [t <= 0] the amount condition is switched off:
    alone it leaves every row in place, whatever its amount, and next to
    other conditions the result is the one for the threshold 0.  With
    [0 < t] the rows kept are exactly those whose amount is there and is at
    most [t]. *)
Theorem amount_filter_threshold df d t r :
  (t <= 0 ->
     filter_expenses df "" t [] = Ok df /\
     filter_expenses df d t r = filter_expenses df d 0 r) /\
  (0 < t ->
     filter_expenses df "" t [] = Ok (select (Amount_le t) df) /\
     (forall x, x ∈ select (Amount_le t) df <->
                x ∈ df /\ exists a, Amount (snd x) = Some a /\ a <= t) /\
     filter_expenses df d t r =
       (df0 ← filter_expenses df d 0 r; Ok (select (Amount_le t) df0))).
Proof.
  split; intros Ht.
  - rewrite !filter_expenses_masks. unfold amount_mask.
    destruct (Z.ltb_spec 0 t); [lia|]. simpl.
    by rewrite !select_true.
  - rewrite !filter_expenses_masks. unfold amount_mask.
    destruct (Z.ltb_spec 0 t); [|lia]. simpl.
    rewrite !select_true. split; [done|]. split.
    + intros x. rewrite elem_of_select. unfold Amount_le.
      destruct (Amount (snd x)) as [a|].
      * rewrite Z.leb_le. split.
        -- intros [Hx Ha]. eauto.
        -- intros [Hx (a' & [= <-] & Ha)]. eauto.
      * split.
        -- intros [_ [=]].
        -- intros [_ (a & [=] & _)].
    + unfold mbind, outcome_mbind, outcome_bind.
      destruct (description_mask d); [|done].
      rewrite select_true. f_equal. apply select_comm.
Qed.

(** C6 (the input on which the code departs from the claim).  The
    description filter is given to [str.contains] as a regular expression:
    the filter made of one dot keeps the row of a coffee, in whose
    description no dot occurs. *)
Theorem dot_filter_keeps_coffee :
  let coffee : DataFrame :=
    [ (0, {| Description := Some "Coffee";
             Amount := Some 450; Date := Some 19723 |}) ] in
  filter_expenses coffee "." 0 [] = Ok coffee /\
  ~ icontains "." "Coffee".
Proof.
  split.
  - unfold filter_expenses, str_contains. simpl.
    destruct (re_dot_pattern "." eq_refl) as (m & -> & Hm). simpl.
    unfold select. simpl. by rewrite Hm.
  - intros (pre & post & E).
    assert (In "."%char (map lower (list_ascii_of_string "Coffee"))) as Hin.
    { rewrite E. apply in_or_app. right. by left. }
    vm_compute in Hin. intuition discriminate.
Qed.

(** An empty description filter does not filter. *)
Lemma empty_description_filter df t r :
  filter_expenses df "" t r =
  Ok (select (date_mask r) (select (amount_mask t) df)).
Proof. rewrite filter_expenses_masks. simpl. by rewrite select_true. Qed.

Lemma keyword_no_dot p :
  forallb (fun c => is_ascii c && negb (re_special c)) p = true ->
  forallb (fun c => negb (Ascii.eqb c ".")) p = true.
Proof.
  induction p as [|c p IH]; simpl; [done|].
  intros [[_ Hc]%andb_prop Hp]%andb_prop. rewrite IH by done.
  rewrite andb_true_r. destruct (Ascii.eqb_spec c "."); [by subst|done].
Qed.

Lemma match_here_prefix p s :
  forallb (fun c => negb (Ascii.eqb c ".")) p = true ->
  match_here p s = true <-> exists post, map lower s = map lower p ++ post.
Proof.
  revert s. induction p as [|c p IH]; intros s Hp; simpl.
  - split; eauto.
  - simpl in Hp. apply andb_prop in Hp as [Hc Hp].
    destruct s as [|x s]; simpl.
    + split; [done | by intros (? & ?)].
    + unfold char_matches. destruct (Ascii.eqb c "."); [done|].
      rewrite andb_true_iff, (IH s Hp). split.
      * intros [->%Ascii.eqb_eq (post & ->)]. eauto.
      * intros (post & [= -> ->]). rewrite Ascii.eqb_refl. eauto.
Qed.

Lemma search_from_infix p s :
  forallb (fun c => negb (Ascii.eqb c ".")) p = true ->
  search_from p s = true <->
  exists pre post, map lower s = pre ++ map lower p ++ post.
Proof.
  intros Hp. induction s as [|x s IH]; simpl.
  - rewrite orb_false_r, (match_here_prefix p [] Hp). simpl. split.
    + intros (post & E). by exists [], post.
    + intros ([|? ?] & post & E); [eauto | done].
  - rewrite orb_true_iff, IH, (match_here_prefix p (x :: s) Hp). simpl. split.
    + intros [(post & E) | (pre & post & E)].
      * by exists [], post.
      * exists (lower x :: pre), post. simpl. by rewrite E.
    + intros ([|c pre] & post & E); simpl in E.
      * left. eauto.
      * injection E as _ E. right. eauto.
Qed.

(** On keywords, that is filters made of ordinary ASCII characters, and
    ASCII descriptions of which one can only be text (so that the column is
    a column of text, on which [.str] applies), the description filter
    keeps exactly the rows whose description is there and contains the
    keyword, letters compared without their case. *)
Theorem keyword_filter df d :
  keyword d = true ->
  truthy d = true ->
  (forall x s, x ∈ df -> Description (snd x) = Some s -> ascii_only s = true) ->
  (exists x s, x ∈ df /\ Description (snd x) = Some s /\
               surely_text s = true) ->
  exists df',
    filter_expenses df d 0 [] = Ok df' /\
    forall x, x ∈ df' <->
              x ∈ df /\ exists s, Description (snd x) = Some s /\ icontains d s.
Proof.
  intros Hk Ht Hascii _.
  assert (dot_pattern d = true) as Hd.
  { unfold dot_pattern, keyword in *. rewrite forallb_forall in *.
    intros c Hc. specialize (Hk c Hc). apply andb_prop in Hk as [-> ->].
    by rewrite orb_true_r. }
  destruct (re_dot_pattern d Hd) as (m & Em & Hm).
  rewrite filter_expenses_masks. unfold description_mask, str_contains.
  rewrite Ht, Em. simpl. rewrite !select_true.
  eexists; split; [done|]. intros x. rewrite elem_of_select.
  split.
  - intros [Hx Hmx]. split; [done|].
    destruct (Description (snd x)) as [s|] eqn:Es; [|done].
    exists s. split; [done|].
    rewrite (Hm s) in Hmx by eauto.
    by apply search_from_infix in Hmx; [|apply keyword_no_dot].
  - intros [Hx (s & Es & Hs)]. split; [done|]. rewrite Es.
    rewrite (Hm s) by eauto.
    by apply search_from_infix; [apply keyword_no_dot|].
Qed.

Lemma filter_expenses_sublist df d t r df' :
  filter_expenses df d t r = Ok df' -> df' `sublist_of` df.
Proof.
  rewrite filter_expenses_masks. unfold mbind, outcome_mbind, outcome_bind.
  destruct (description_mask d) as [mask|]; [|done]. intros [= <-].
  rewrite !select_and. apply select_sublist.
Qed.

(** The objects at the end of [filter_expenses_obj]: the result is an
    object made during the call, it holds what [filter_expenses] computes
    from the frame of the argument, and no object of the caller changed. *)
Lemma filter_expenses_obj_run h expenses d t r :
  exists o h',
    filter_expenses_obj expenses d t r h = (o, h') /\
    (forall x, (x < next h)%nat -> obj h' x = obj h x) /\
    match o with
    | Ok res =>
        (next h <= res)%nat /\
        filter_expenses (obj h expenses) d t r = Ok (obj h' res)
    | Raise e => filter_expenses (obj h expenses) d t r = Raise e
    end.
Proof.
  unfold filter_expenses_obj, filter_expenses.
  unfold mbind, outcome_mbind, outcome_bind. simpl.
  destruct (truthy d); [destruct (str_contains d) as [mask|e]|]; simpl.
  2: { do 2 eexists. split; [done|]. split; [|done].
       intros x Hx. simpl. destruct (Nat.eqb_spec x (next h)); [lia|done]. }
  all: destruct (0 <? t); simpl;
    destruct r as [|? [|? [|? ?]]]; simpl;
    do 2 eexists; (split; [done|]); simpl;
    (split; [intros x Hx;
             repeat match goal with
               | |- context [Nat.eqb ?a ?b] =>
                   destruct (Nat.eqb_spec a b); [lia|]
               end; done|]);
    (split; [lia|]);
    repeat match goal with
      | |- context [Nat.eqb ?a ?b] =>
          destruct (Nat.eqb_spec a b); [|lia]
      | |- context [Nat.eqb ?a ?b] =>
          destruct (Nat.eqb_spec a b); [lia|]
      end; done.
Qed.

(** C9.  For a frame object [expenses] of the caller, [filter_expenses]
    leaves every object of the caller, [expenses] among them, with the
    rows it had; when it returns, the result is another object, and its
    rows are rows of [expenses], under their labels and in their order. *)
Theorem filter_expenses_subset_pure h expenses d t r :
  (expenses < next h)%nat ->
  exists o h',
    filter_expenses_obj expenses d t r h = (o, h') /\
    obj h' expenses = obj h expenses /\
    (forall x, (x < next h)%nat -> obj h' x = obj h x) /\
    match o with
    | Ok res =>
        res <> expenses /\
        filter_expenses (obj h expenses) d t r = Ok (obj h' res) /\
        obj h' res `sublist_of` obj h expenses /\
        (forall x, x ∈ obj h' res -> x ∈ obj h expenses)
    | Raise e => filter_expenses (obj h expenses) d t r = Raise e
    end.
Proof.
  intros He.
  destruct (filter_expenses_obj_run h expenses d t r)
    as (o & h' & Hrun & Hold & Ho).
  exists o, h'. split; [done|]. split; [by apply Hold|]. split; [done|].
  destruct o as [res|e]; [|done].
  destruct Ho as [Hres Hval].
  pose proof (filter_expenses_sublist _ _ _ _ _ Hval) as Hsub.
  split; [lia|]. split; [done|]. split; [done|].
  intros x Hx. by eapply elem_of_sublist.
Qed.

End Filter.

(** ** The add action *)

Section Main.
Context `{Pandas}.

(** C4.  Pressing "Add Expense" with an empty description or an amount
    that is not above 0 shows the error message and nothing else, and
    leaves the file as it was: nothing is written. *)
Theorem add_rejects_invalid s description a d :
  description = "" \/ a <= 0 ->
  main_add_expense description a d s =
  (Ok [st_error "Please enter a valid description and amount."], s).
Proof.
  intros Hbad. unfold main_add_expense.
  assert (truthy description && (0 <? a) = false) as ->; [|done].
  destruct Hbad as [-> | Ha]; [done|].
  destruct (Z.ltb_spec 0 a); [lia|]. apply andb_false_r.
Qed.

(** With a description and an amount above 0 the record is written, at
    the end of the file, and the reloaded table is shown. *)
Lemma add_accepts_valid s description a d :
  description <> "" -> 0 < a ->
  exists T,
    main_add_expense description a d s =
    (Ok [st_success description a d; st_dataframe T],
     Some (default [] s ++
           [ {| raw_description := description;
                raw_amount := repr_amount a;
                raw_date := isoformat d |} ])).
Proof.
  intros Hd Ha. unfold main_add_expense.
  assert (truthy description && (0 <? a) = true) as ->.
  { unfold truthy. destruct (String.eqb_spec description ""); [done|].
    destruct (Z.ltb_spec 0 a); [done|lia]. }
  pose proof (run_save_load description a d s) as Hrun.
  unfold mbind, M_mbind, M_bind, mret, M_mret, M_ret in *.
  destruct (save_expense description a d s) as [[[]|e] s1]; [|done].
  destruct (load_expenses s1) as [[T|e] s2]; [|done].
  injection Hrun as _ ->. eauto.
Qed.

(** The file changes only for a description and an amount above 0. *)
Lemma add_writes_only_valid s description a d :
  snd (main_add_expense description a d s) <> s ->
  description <> "" /\ 0 < a.
Proof.
  unfold main_add_expense, truthy. intros Hs.
  destruct (String.eqb_spec description "") as [->|Hd]; simpl in Hs; [done|].
  destruct (Z.ltb_spec 0 a); simpl in Hs; done.
Qed.

End Main.

(** ** What [save_expense] leaves in the file *)

Section Sequences.
Context `{Pandas}.

Lemma run_save description a d s :
  save_expense description a d s =
  (Ok tt, Some (default [] s ++
                [ {| raw_description := description;
                     raw_amount := repr_amount a;
                     raw_date := isoformat d |} ])).
Proof. by destruct s. Qed.

End Sequences.

(** ** More on the filter *)

Section Criteria.
Context `{Pandas}.

(** The date range, given as two dates: the rows kept are exactly those
    whose date is there and lies between the two, both ends included; a
    row with a missing date is dropped. *)
Theorem date_range_filter df start_date end_date :
  exists df',
    filter_expenses df "" 0 [start_date; end_date] = Ok df' /\
    forall x, x ∈ df' <->
              x ∈ df /\
              exists d, Date (snd x) = Some d /\ start_date <= d <= end_date.
Proof.
  eexists. split; [reflexivity|]. intros x.
  rewrite elem_of_select. unfold Date_ge, Date_le.
  destruct (Date (snd x)) as [d|]; simpl.
  - rewrite andb_true_iff, !Z.leb_le. split.
    + intros [Hx Hd]. eauto.
    + intros [Hx (d' & [= <-] & Hd)]. eauto.
  - split.
    + intros [_ [=]].
    + intros [_ (d & [=] & _)].
Qed.

(** A date range that is not made of two dates (none, one date only,
    three or more) does not filter by date. *)
Theorem date_range_ignored df d t r :
  length r <> 2%nat ->
  filter_expenses df d t r = filter_expenses df d t [].
Proof.
  intros Hr. rewrite !filter_expenses_masks.
  destruct r as [|? [|? [|? ?]]]; simpl in *; done || lia.
Qed.

(** The three conditions hold together: filtering with all of them is
    filtering with the description, then with the amount on the result,
    then with the dates on that result. *)
Theorem filter_expenses_conjunctive df d t r :
  filter_expenses df d t r =
  (df1 ← filter_expenses df d 0 [];
   df2 ← filter_expenses df1 "" t [];
   filter_expenses df2 "" 0 r).
Proof.
  rewrite !filter_expenses_masks.
  unfold mbind, outcome_mbind, outcome_bind.
  destruct (description_mask d) as [mask|e]; simpl; [|done].
  rewrite !filter_expenses_masks. simpl.
  change (amount_mask 0) with (fun _ : expense => true).
  change (date_mask []) with (fun _ : expense => true).
  rewrite !select_true. unfold amount_mask.
  destruct (0 <? t); by rewrite ?select_true.
Qed.

(** Two filters one after the other give the same frame in either
    order. *)
Theorem filter_expenses_commute df d1 t1 r1 d2 t2 r2 a b :
  filter_expenses df d1 t1 r1 = Ok a ->
  filter_expenses a d2 t2 r2 = Ok b ->
  exists c,
    filter_expenses df d2 t2 r2 = Ok c /\
    filter_expenses c d1 t1 r1 = Ok b.
Proof.
  rewrite !filter_expenses_masks.
  unfold mbind, outcome_mbind, outcome_bind.
  destruct (description_mask d1) as [m1|] eqn:E1; [|done].
  destruct (description_mask d2) as [m2|] eqn:E2; [|done].
  intros [= <-] [= <-]. eexists. split; [done|].
  rewrite filter_expenses_masks, E1. simpl. f_equal.
  rewrite !select_and. apply select_ext. intros x.
  destruct (m1 x), (amount_mask t1 x), (date_mask r1 x), (m2 x),
    (amount_mask t2 x), (date_mask r2 x); done.
Qed.

End Criteria.

(** ** One run of [main] *)

Section Run.
Context `{Pandas}.

Ltac run_main :=
  unfold main, mbind, M_mbind, M_bind, mret, M_mret, M_ret, lift.

(** A run in which neither "Remove Expense" nor "Add Expense" is pressed
    leaves the file as it is: the filtered view is displayed and not
    written, also when the filter raises. *)
Theorem main_view_only ui s :
  ui_remove_expense ui = false ->
  ui_add_expense ui = false ->
  snd (main ui s) = s.
Proof.
  intros Hr Ha. run_main. rewrite load_expenses_total, Hr, Ha.
  destruct (is_empty _); simpl;
    destruct (ui_apply_filter ui); simpl; try done;
    by destruct (filter_expenses _ _ _ _).
Qed.

(** Without expenses (no file, or a file without data lines) the run says
    so and offers no removal: a press of "Remove Expense" does nothing, and
    [remove_expense] is not called. *)
Theorem main_no_expenses ui s :
  load_expenses s = (Ok [], s) ->
  ui_add_expense ui = false ->
  ui_apply_filter ui = false ->
  main ui s =
  (Ok ([ st_title "Expense Tracker"; st_header "Current Expenses";
         st_write "No expenses found." ] ++ add_form ++ filter_form), s).
Proof.
  intros Hload Ha Hf. run_main. by rewrite Hload, Ha, Hf.
Qed.

(** Pressing "Add Expense" changes the file as [main_add_expense] does,
    that is by [save_expense] when the description is not empty and the
    amount is above 0, and not at all otherwise. *)
Theorem main_add ui s :
  ui_remove_expense ui = false ->
  ui_add_expense ui = true ->
  snd (main ui s) =
  snd (main_add_expense (ui_description ui) (ui_amount ui) (ui_date ui) s).
Proof.
  intros Hr Ha. run_main. unfold main_add_expense.
  rewrite load_expenses_total, Hr, Ha.
  run_main.
  destruct (is_empty _); simpl;
    destruct (truthy (ui_description ui) && (0 <? ui_amount ui)); simpl;
    rewrite ?run_save, ?load_expenses_total; simpl;
    destruct (ui_apply_filter ui); simpl; try done;
    by destruct (filter_expenses _ _ _ _).
Qed.

(** The frame that "Apply Filter" filters is the table of the file as the
    run leaves it: a removal or an addition of the same run is taken into
    account.  The filtered frame is the last thing on the page. *)
Theorem main_filter_current ui s page s' :
  main ui s = (Ok page, s') ->
  ui_apply_filter ui = true ->
  exists T F,
    load_expenses s' = (Ok T, s') /\
    filter_expenses T (ui_description_filter ui) (ui_amount_filter ui)
                    (ui_date_range ui) = Ok F /\
    last page = Some (st_show (st_dataframe F)).
Proof.
  run_main. rewrite load_expenses_total. intros Hmain Hf. rewrite Hf in Hmain.
  destruct (is_empty _); simpl in Hmain.
  - destruct (ui_add_expense ui);
      [destruct (truthy (ui_description ui) && (0 <? ui_amount ui))|];
      simpl in Hmain;
      rewrite ?run_save, ?load_expenses_total in Hmain; simpl in Hmain;
      match type of Hmain with
      | context [filter_expenses ?T ?d ?t ?r] =>
          destruct (filter_expenses T d t r) as [F|] eqn:EF; [|done];
          injection Hmain as <- <-; exists T, F;
          rewrite load_expenses_total; simpl;
          split; [try done|split; [done|first [by rewrite last_snoc|reflexivity]]]
      end.
  - destruct (ui_remove_expense ui).
    + destruct (remove_expense (ui_selected_expense ui) s)
        as [[[]|e] s1] eqn:Erm; [|done].
      rewrite load_expenses_total in Hmain.
      destruct (ui_add_expense ui);
        [destruct (truthy (ui_description ui) && (0 <? ui_amount ui))|];
        simpl in Hmain;
        rewrite ?run_save, ?load_expenses_total in Hmain; simpl in Hmain;
        match type of Hmain with
        | context [filter_expenses ?T ?d ?t ?r] =>
            destruct (filter_expenses T d t r) as [F|] eqn:EF; [|done];
            injection Hmain as <- <-; exists T, F;
            rewrite load_expenses_total; simpl;
            split; [try done|split; [done|first [by rewrite last_snoc|reflexivity]]]
        end.
    + destruct (ui_add_expense ui);
        [destruct (truthy (ui_description ui) && (0 <? ui_amount ui))|];
        simpl in Hmain;
        rewrite ?run_save, ?load_expenses_total in Hmain; simpl in Hmain;
        match type of Hmain with
        | context [filter_expenses ?T ?d ?t ?r] =>
            destruct (filter_expenses T d t r) as [F|] eqn:EF; [|done];
            injection Hmain as <- <-; exists T, F;
            rewrite load_expenses_total; simpl;
            split; [try done|split; [done|first [by rewrite last_snoc|reflexivity]]]
        end.
Qed.

End Run.

(** ** The code on any file: whole columns *)

Section Whole.
Context `{Columns}.

Lemma map_delete {A B} (f : A -> B) (l : list A) i :
  map f (delete i l) = delete i (map f l).
Proof.
  revert i. induction l as [|x l IH]; intros [|i]; simpl; try done.
  by rewrite IH.
Qed.

Lemma zip3_columns (ds : list (option string)) (ams : list (option amount))
    (dts : list (option date)) :
  length ds = length ams -> length ams = length dts ->
  let l := zip_with (fun d ad => Expense d (fst ad) (snd ad))
                    ds (zip ams dts) in
  map Description l = ds /\ map Amount l = ams /\ map Date l = dts.
Proof.
  revert ams dts.
  induction ds as [|d ds IH]; intros [|a ams] [|dt dts]; simpl; try done.
  intros [= H1] [= H2]. destruct (IH ams dts H1 H2) as (-> & -> & ->). done.
Qed.

Lemma load_rows_columns lines :
  map Description (Typed.load_rows lines)
    = read_Description (map raw_description lines) /\
  map Amount (Typed.load_rows lines)
    = map (fun r => read_cell (raw_amount r) ≫= to_numeric) lines /\
  map Date (Typed.load_rows lines) = read_Date (map raw_date lines).
Proof.
  apply zip3_columns.
  - by rewrite read_Description_length, !length_map.
  - by rewrite read_Date_length, !length_map.
Qed.

Lemma length_load_rows lines :
  length (Typed.load_rows lines) = length lines.
Proof.
  destruct (load_rows_columns lines) as (_ & Ha & _).
  apply (f_equal length) in Ha. by rewrite !length_map in Ha.
Qed.

(** A row is its three cells. *)
Lemma rows_by_columns (l k : list expense) :
  map Description l = map Description k ->
  map Amount l = map Amount k ->
  map Date l = map Date k ->
  l = k.
Proof.
  revert k. induction l as [|[d a dt] l IH]; intros [|[d' a' dt'] k]; simpl;
    try done.
  intros [= -> Hd] [= -> Ha] [= -> Hdt]. f_equal. by apply IH.
Qed.

(** The amounts and the dates of rows that were written by [to_csv] are
    read back as they were. *)
Lemma load_rows_written (l : list expense) :
  map Amount (Typed.load_rows (map write_row l)) = map Amount l /\
  map Date (Typed.load_rows (map write_row l)) = map Date l.
Proof.
  destruct (load_rows_columns (map write_row l)) as (_ & -> & ->). split.
  - rewrite map_map. apply map_ext. intros [d [a|] dt]; simpl; [|done].
    unfold read_cell. rewrite repr_amount_not_na. simpl. apply to_numeric_repr.
  - rewrite map_map.
    assert (map (fun x => raw_date (write_row x)) l =
            map write_date (map Date l)) as -> by by rewrite map_map.
    apply read_Date_written.
Qed.

(** So are the descriptions, when one of them can only be text. *)
Lemma load_rows_written_text (l : list expense) :
  Forall clean l ->
  one_chunk (map (fun r => default "" (Description r)) l) = true ->
  existsb surely_text (map (fun r => default "" (Description r)) l) = true ->
  Typed.load_rows (map write_row l) = l.
Proof.
  intros Hc Hone Htext.
  destruct (load_rows_written l) as [Ha Hd].
  apply rows_by_columns; [|done|done].
  destruct (load_rows_columns (map write_row l)) as (-> & _ & _).
  rewrite map_map. simpl.
  rewrite read_Description_text by done.
  rewrite map_map. clear Hone Htext Ha Hd.
  induction Hc as [|[[d|] a dt] l Hr _ IH]; simpl; [done|..]; rewrite IH;
    f_equal.
  unfold read_cell. unfold clean in Hr. simpl in Hr. by rewrite Hr.
Qed.

Lemma run_load_table lines :
  Typed.load_expenses (csv_lines lines) =
  (Ok {| frame_columns := header;
         frame_rows := RangeIndex (Typed.load_rows lines) |}, csv_lines lines).
Proof. reflexivity. Qed.

(** A frame that the code loaded, with an index in it, comes from a
    [csv_lines]. *)
Lemma loaded_with_rows f F (i : Z) :
  Typed.load_expenses f = (Ok F, f) ->
  0 <= i < Z.of_nat (length (frame_rows F)) ->
  exists lines,
    f = csv_lines lines /\
    F = {| frame_columns := header;
           frame_rows := RangeIndex (Typed.load_rows lines) |}.
Proof.
  destruct f; simpl; intros [= <-] Hi; try (simpl in Hi; lia). eauto.
Qed.

Lemma run_remove_table lines i :
  0 <= i < Z.of_nat (length lines) ->
  Typed.remove_expense i (csv_lines lines) =
  (Ok tt,
   csv_lines (map write_row (delete (Z.to_nat i) (Typed.load_rows lines)))).
Proof.
  intros Hi. unfold Typed.remove_expense, Typed.bind.
  rewrite run_load_table. simpl frame_rows.
  destruct (drop_index_from 0 (Typed.load_rows lines) i)
    as (df & Hdrop & Hrows); [rewrite length_load_rows; lia|].
  unfold RangeIndex. rewrite Hdrop. unfold Typed.to_csv.
  by rewrite Hrows, Z.sub_0_r.
Qed.





(** The reading cell by cell of [load_expenses] is the code's when the
    Description column is text (or the file has no line) and the dates
    are all as [to_csv] writes them. *)
Lemma load_expenses_cells s T vals :
  load_expenses s = (Ok T, s) ->
  one_chunk (map raw_description (default [] s)) = true ->
  default [] s = [] \/
    existsb surely_text (map raw_description (default [] s)) = true ->
  map raw_date (default [] s) = map write_date vals ->
  exists F,
    Typed.load_expenses (of_store s) = (Ok F, of_store s) /\
    frame_rows F = T.
Proof.
  intros [-> _]%loaded_frame Hone Htext Hdates.
  assert (Typed.load_rows (default [] s) = map load_row (default [] s)) as E.
  { destruct (load_rows_columns (default [] s)) as (Hd & Ha & Hdt).
    apply rows_by_columns.
    - rewrite Hd, map_map.
      destruct Htext as [->|Htext]; [|by rewrite read_Description_text, map_map].
      simpl. pose proof (read_Description_length []) as E.
      by destruct (read_Description []).
    - by rewrite Ha, map_map.
    - rewrite Hdt, map_map, Hdates, read_Date_written.
      transitivity (map (fun tok => read_cell tok ≫= to_datetime)
                        (map raw_date (default [] s))).
      + rewrite Hdates, map_map. clear.
        induction vals as [|[d|] vals IH]; simpl; [done|..]; rewrite <- IH;
          f_equal.
        unfold read_cell. simpl. rewrite isoformat_not_na. simpl.
        by rewrite to_datetime_isoformat.
      + by rewrite map_map. }
  destruct s as [lines|]; simpl in *.
  - eexists. split; [reflexivity|]. simpl. by rewrite E.
  - eexists. split; [reflexivity|]. done.
Qed.


End Whole.

(** ** Runs on the table of the examples, with the reference library *)

Import Examples.

Lemma save_NA_then_load_witness :
  exists T s',
    (@save_expense Reference.pandas "NA" 450 19723 ≫=
       fun _ => @load_expenses Reference.pandas) file = (Ok T, s') /\
    last (rows T) =
      Some {| Description := None; Amount := Some 450; Date := Some 19723 |} /\
    last (rows T) <>
      Some {| Description := Some "NA"; Amount := Some 450;
              Date := Some 19723 |}.
Proof. apply (@save_NA_then_load Reference.pandas file 450 19723). Defined.

Lemma add_rejects_invalid_witness :
  ("Taxi" = "" \/ 0 <= 0) /\
  @main_add_expense Reference.pandas "Taxi" 0 19724 file =
  (Ok [st_error "Please enter a valid description and amount."], file).
Proof.
  split; [right; lia|].
  apply (@add_rejects_invalid Reference.pandas file "Taxi" 0 19724).
  right; lia.
Defined.

Lemma amount_filter_threshold_witness :
  @filter_expenses Reference.pandas table "" 0 [] = Ok table /\
  @filter_expenses Reference.pandas table "" 10000 [] =
    Ok (select (Amount_le 10000) table) /\
  select (Amount_le 10000) table = [(0, coffee)].
Proof.
  split; [|split].
  - apply (proj1 (@amount_filter_threshold Reference.pandas table "" 0 [])).
    lia.
  - apply (proj2 (@amount_filter_threshold Reference.pandas table "" 10000 [])).
    lia.
  - reflexivity.
Defined.

Lemma dot_filter_keeps_coffee_witness :
  @filter_expenses Reference.pandas [(0, coffee)] "." 0 [] = Ok [(0, coffee)] /\
  ~ icontains "." "Coffee".
Proof. apply (@dot_filter_keeps_coffee Reference.pandas). Defined.

(** C7 (the claim fails).  The table of the examples has the indices 0 and
    1; removing at the index 2 does not complete: it raises KeyError. *)
Lemma remove_out_of_range_not_silent :
  @load_expenses Reference.pandas file = (Ok table, file) /\
  ~ (0 <= 2 < Z.of_nat (length table)) /\
  @remove_expense Reference.pandas 2 file = (Raise (KeyError 2), file) /\
  ~ exists s', @remove_expense Reference.pandas 2 file = (Ok tt, s').
Proof.
  split; [reflexivity|]. split; [simpl; lia|]. split; [reflexivity|].
  intros [s' E]. vm_compute in E. discriminate.
Qed.

Lemma remove_out_of_range_raises_witness :
  @load_expenses Reference.pandas file = (Ok table, file) /\
  (2 < 0 \/ Z.of_nat (length table) <= 2) /\
  @remove_expense Reference.pandas 2 file = (Raise (KeyError 2), file).
Proof.
  split; [reflexivity|]. split; [right; simpl; lia|].
  apply (@remove_out_of_range_raises Reference.pandas file table 2);
    [reflexivity | right; simpl; lia].
Defined.

Lemma filter_expenses_idempotent_witness :
  (df' ← @filter_expenses Reference.pandas table "rent" 0 [];
   @filter_expenses Reference.pandas df' "rent" 0 []) = Ok [(1, rent)].
Proof.
  rewrite (@filter_expenses_idempotent Reference.pandas table "rent" 0 []).
  reflexivity.
Defined.

Lemma filter_expenses_subset_pure_witness :
  (0 < next heap)%nat /\
  exists o h',
    @filter_expenses_obj Reference.pandas 0%nat "rent" 0 [] heap = (o, h') /\
    obj h' 0%nat = obj heap 0%nat /\
    (forall x, (x < next heap)%nat -> obj h' x = obj heap x) /\
    match o with
    | Ok res =>
        res <> 0%nat /\
        @filter_expenses Reference.pandas (obj heap 0%nat) "rent" 0 [] =
          Ok (obj h' res) /\
        obj h' res `sublist_of` obj heap 0%nat /\
        (forall x, x ∈ obj h' res -> x ∈ obj heap 0%nat)
    | Raise e =>
        @filter_expenses Reference.pandas (obj heap 0%nat) "rent" 0 [] = Raise e
    end.
Proof.
  split; [simpl; lia|].
  apply (@filter_expenses_subset_pure Reference.pandas heap 0%nat "rent" 0 []).
  simpl; lia.
Defined.

(** The examples of the filter. *)
Example filter_rent :
  @filter_expenses Reference.pandas table "rent" 0 [] = Ok [(1, rent)].
Proof. reflexivity. Qed.

Example filter_up_to_100 :
  @filter_expenses Reference.pandas table "" 10000 [] = Ok [(0, coffee)].
Proof. reflexivity. Qed.

Example add_taxi_for_nothing :
  @main_add_expense Reference.pandas "Taxi" 0 19724 file =
  (Ok [st_error "Please enter a valid description and amount."], file).
Proof. reflexivity. Qed.

(** Runs of the sequences, of the filter and of [main]. *)

Lemma keyword_filter_witness :
  keyword "rent" = true /\
  truthy "rent" = true /\
  (forall x s, x ∈ table -> Description (snd x) = Some s ->
               ascii_only s = true) /\
  (exists x s, x ∈ table /\ Description (snd x) = Some s /\
               surely_text s = true) /\
  exists df',
    @filter_expenses Reference.pandas table "rent" 0 [] = Ok df' /\
    forall x, x ∈ df' <->
              x ∈ table /\
              exists s, Description (snd x) = Some s /\ icontains "rent" s.
Proof.
  assert (forall x s, x ∈ table -> Description (snd x) = Some s ->
                      ascii_only s = true) as Hascii.
  { intros x s Hx. apply list_elem_of_In in Hx. simpl in Hx.
    destruct Hx as [<-|[<-|[]]]; intros [= <-]; reflexivity. }
  assert (exists x s, x ∈ table /\ Description (snd x) = Some s /\
                      surely_text s = true) as Htext.
  { exists (0, coffee), "Coffee". split; [apply list_elem_of_In; by left|].
    split; reflexivity. }
  split; [reflexivity|]. split; [reflexivity|]. split; [exact Hascii|].
  split; [exact Htext|].
  apply (@keyword_filter Reference.pandas table "rent");
    [reflexivity | reflexivity | exact Hascii | exact Htext].
Defined.

Lemma date_range_filter_witness :
  exists df',
    @filter_expenses Reference.pandas table "" 0 [19720; 19725] = Ok df' /\
    forall x, x ∈ df' <->
              x ∈ table /\
              exists d, Date (snd x) = Some d /\ 19720 <= d <= 19725.
Proof. apply (@date_range_filter Reference.pandas table 19720 19725). Defined.

Lemma date_range_ignored_witness :
  length [19727] <> 2%nat /\
  @filter_expenses Reference.pandas table "" 0 [19727] =
  @filter_expenses Reference.pandas table "" 0 [].
Proof.
  split; [simpl; lia|].
  apply (@date_range_ignored Reference.pandas table "" 0 [19727]).
  simpl; lia.
Defined.

Lemma filter_expenses_conjunctive_witness :
  @filter_expenses Reference.pandas table "e" 10000 [19720; 19725] =
  (df1 ← @filter_expenses Reference.pandas table "e" 0 [];
   df2 ← @filter_expenses Reference.pandas df1 "" 10000 [];
   @filter_expenses Reference.pandas df2 "" 0 [19720; 19725]).
Proof.
  apply (@filter_expenses_conjunctive Reference.pandas table "e" 10000
           [19720; 19725]).
Defined.

Lemma filter_expenses_commute_witness :
  @filter_expenses Reference.pandas table "e" 0 [] = Ok table /\
  @filter_expenses Reference.pandas table "" 10000 [] = Ok [(0, coffee)] /\
  exists c,
    @filter_expenses Reference.pandas table "" 10000 [] = Ok c /\
    @filter_expenses Reference.pandas c "e" 0 [] = Ok [(0, coffee)].
Proof.
  split; [reflexivity|]. split; [reflexivity|].
  apply (@filter_expenses_commute Reference.pandas table "e" 0 [] "" 10000 []
           table [(0, coffee)]); reflexivity.
Defined.

Lemma main_view_only_witness :
  ui_remove_expense press_filter = false /\
  ui_add_expense press_filter = false /\
  snd (@main Reference.pandas press_filter file) = file.
Proof.
  split; [reflexivity|]. split; [reflexivity|].
  apply (@main_view_only Reference.pandas press_filter file); reflexivity.
Defined.

Lemma main_no_expenses_witness :
  @load_expenses Reference.pandas None = (Ok [], None) /\
  ui_add_expense press_remove = false /\
  ui_apply_filter press_remove = false /\
  @main Reference.pandas press_remove None =
  (Ok ([ st_title "Expense Tracker"; st_header "Current Expenses";
         st_write "No expenses found." ] ++ add_form ++ filter_form), None).
Proof.
  split; [reflexivity|]. split; [reflexivity|]. split; [reflexivity|].
  apply (@main_no_expenses Reference.pandas press_remove None); reflexivity.
Defined.

Lemma main_add_witness :
  ui_remove_expense press_add = false /\
  ui_add_expense press_add = true /\
  snd (@main Reference.pandas press_add file) =
  snd (@main_add_expense Reference.pandas (ui_description press_add)
         (ui_amount press_add) (ui_date press_add) file).
Proof.
  split; [reflexivity|]. split; [reflexivity|].
  apply (@main_add Reference.pandas press_add file); reflexivity.
Defined.

Lemma main_filter_current_witness :
  @main Reference.pandas press_filter file =
    (Ok ([ st_title "Expense Tracker"; st_header "Current Expenses";
           st_show (st_dataframe table);
           st_selectbox "Select an expense to remove" [0; 1];
           st_button "Remove Expense" ] ++ add_form ++ filter_form ++
         [ st_write "Filtered Expenses:";
           st_show (st_dataframe [(1, rent)]) ]), file) /\
  ui_apply_filter press_filter = true /\
  exists T F,
    @load_expenses Reference.pandas file = (Ok T, file) /\
    @filter_expenses Reference.pandas T (ui_description_filter press_filter)
      (ui_amount_filter press_filter) (ui_date_range press_filter) = Ok F /\
    last ([ st_title "Expense Tracker"; st_header "Current Expenses";
            st_show (st_dataframe table);
            st_selectbox "Select an expense to remove" [0; 1];
            st_button "Remove Expense" ] ++ add_form ++ filter_form ++
          [ st_write "Filtered Expenses:";
            st_show (st_dataframe [(1, rent)]) ]) =
    Some (st_show (st_dataframe F)).
Proof.
  split; [reflexivity|]. split; [reflexivity|].
  apply (@main_filter_current Reference.pandas press_filter file);
    reflexivity.
Defined.

(** Runs on whole columns. *)






